(** * Android APK commands of briefcase: a shallow embedding

    Source: [src/briefcase/platforms/android/apk.py].

    The module drives external collaborators (the filesystem, the download
    facility, subprocesses and the adb integration).  Every such call is an
    operation of a small interaction monad [Prog]; running a program against
    an environment [World] yields the chronological log of the calls made
    and either the returned value or the Python exception that escaped. *)

From Stdlib Require Import ZArith Ascii String.
From stdpp Require Import base option list strings gmap fin_maps.

Local Open Scope string_scope.
Local Open Scope list_scope.
Local Open Scope Z_scope.

(** ** Python strings *)

Module PyStr.

Definition nl : string := String "010"%char EmptyString.
Definition dquote : string := String "034"%char EmptyString.

(** [str.lower] on the ASCII range. *)
Definition lower_ascii (c : ascii) : ascii :=
  let n := nat_of_ascii c in
  if ((65 <=? n)%nat && (n <=? 90)%nat)%bool then ascii_of_nat (n + 32) else c.

Fixpoint lower (s : string) : string :=
  match s with
  | EmptyString => EmptyString
  | String c r => String (lower_ascii c) (lower r)
  end.

(** The characters [str.lstrip] removes when called without argument. *)
Definition is_space (c : ascii) : bool :=
  let n := nat_of_ascii c in
  ((n =? 32)%nat || ((9 <=? n)%nat && (n <=? 13)%nat)
   || ((28 <=? n)%nat && (n <=? 31)%nat))%bool.

Fixpoint lstrip (s : string) : string :=
  match s with
  | EmptyString => EmptyString
  | String c r => if is_space c then lstrip r else s
  end.

(** [needle in hay]. *)
Fixpoint contains (needle hay : string) : bool :=
  (String.prefix needle hay
   || match hay with
      | EmptyString => false
      | String _ r => contains needle r
      end)%bool.

(** Arguments of [str.format]: a string, a path (rendered with [str]) or
    an object whose string attributes a field [{name.attr}] reads. *)
Inductive FormatArg : Type :=
| FStr (s : string)
| FObj (attrs : string -> option string).

(** Splits the field name [name.attr] at its first dot. *)
Fixpoint split_field (f : string) : string * option string :=
  match f with
  | EmptyString => (EmptyString, None)
  | String c r =>
      if Ascii.eqb c "."%char then (EmptyString, Some r)
      else let '(n, a) := split_field r in (String c n, a)
  end.

Fixpoint kwarg (name : string) (kwargs : list (string * FormatArg))
  : option FormatArg :=
  match kwargs with
  | [] => None
  | (k, v) :: r => if String.eqb k name then Some v else kwarg name r
  end.

(** The text a replacement field stands for; [None] is the [KeyError] or
    [AttributeError] of the lookup.  Conversions ([!r]) and format specs
    ([:spec]) occur in no template of the module and find no argument. *)
Definition field_value (kwargs : list (string * FormatArg)) (f : string)
  : option string :=
  let '(name, attr) := split_field f in
  match kwarg name kwargs, attr with
  | Some (FStr s), None => Some s
  | Some (FObj attrs), Some a => attrs a
  | _, _ => None
  end.

(** [str.format] with keyword arguments.  [field] is [Some f] while the scan is
    inside [{...}], with [f] the field name read so far.  [{{] and [}}]
    are the escaped braces; a lone [}] or an unclosed field is the
    [ValueError] of Python, here [None]. *)
Fixpoint format_from (kwargs : list (string * FormatArg))
    (field : option string) (t : string) : option string :=
  match t with
  | EmptyString =>
      match field with None => Some EmptyString | Some _ => None end
  | String c r =>
      match field with
      | Some f =>
          if Ascii.eqb c "}"%char then
            match field_value kwargs f with
            | Some v =>
                match format_from kwargs None r with
                | Some out => Some (v +:+ out)
                | None => None
                end
            | None => None
            end
          else format_from kwargs (Some (f +:+ String c EmptyString)) r
      | None =>
          if Ascii.eqb c "{"%char then
            match r with
            | String c' r' =>
                if Ascii.eqb c' "{"%char then
                  String c <$> format_from kwargs None r'
                else format_from kwargs (Some EmptyString) r
            | EmptyString => None
            end
          else if Ascii.eqb c "}"%char then
            match r with
            | String c' r' =>
                if Ascii.eqb c' "}"%char then
                  String c <$> format_from kwargs None r'
                else None
            | EmptyString => None
            end
          else String c <$> format_from kwargs None r
      end
  end.

Definition format (t : string) (kwargs : list (string * FormatArg))
  : option string :=
  format_from kwargs None t.

End PyStr.

(** ** Paths ([pathlib.Path]) *)

(** A path is its list of components; [p </> s] is Python's [p / s] and
    [path_str] is [str(p)] on a POSIX host. *)
Definition Path : Type := list string.

Definition path_div (p : Path) (s : string) : Path := (p ++ [s])%list.
Infix "</>" := path_div (at level 40, left associativity).

Fixpoint path_str (p : Path) : string :=
  match p with
  | [] => EmptyString
  | [s] => s
  | s :: r => s +:+ "/" +:+ path_str r
  end.

Definition FPath (p : Path) : PyStr.FormatArg := PyStr.FStr (path_str p).

(** ** Exceptions *)

(** The exception classes the module raises, catches or lets pass.
    [AttributeError] is what Python raises for an attribute no class of the
    object defines; [FormatError] stands for the [KeyError] and [ValueError]
    of [str.format]; [OtherException] is any class no [except] clause of the
    module names. *)
Inductive Exn : Type :=
| BriefcaseCommandError (msg : string)
| NetworkFailure (action : string)
| RequestsConnectionError
| DeviceNotFound
| CalledProcessError (returncode : Z)
| AttributeError (attr : string)
| FormatError
| OtherException (name : string).

(** ** Calls to the collaborators *)

Inductive Call : Type :=
| PathExists (p : Path)
| Glob (dir : Path) (pattern : string)
| Print (s : string)
| DownloadUrl (url : string) (download_path : Path)
| ZipExtractAll (zip dest : Path)
| Unlink (p : Path)
| PathChmod (p : Path) (mode : Z)
| OsChmod (p : string) (mode : Z)
| SubprocessRun (args : list string) (env : option (gmap string string))
    (check : bool) (cwd : option string)
| InstallApk (sdk : Path) (device : string) (apk : Path)
| ForceStopApp (sdk : Path) (device package : string)
| StartApp (sdk : Path) (device package activity : string).

(** What a call hands back when it does not raise. [SubprocessRun] hands
    back the exit status of the child. *)
Definition resp (c : Call) : Type :=
  match c with
  | PathExists _ => bool
  | Glob _ _ => list Path
  | DownloadUrl _ _ => Path
  | SubprocessRun _ _ _ _ => Z
  | _ => unit
  end.

(** Calls that only read: the existence test and the directory listing. *)
Definition is_probe (c : Call) : bool :=
  match c with
  | PathExists _ | Glob _ _ => true
  | _ => false
  end.

Definition is_adb (c : Call) : bool :=
  match c with
  | InstallApk _ _ _ | ForceStopApp _ _ _ | StartApp _ _ _ _ => true
  | _ => false
  end.

Definition is_subprocess (c : Call) : bool :=
  match c with
  | SubprocessRun _ _ _ _ => true
  | _ => false
  end.

(** The operations of a log: everything that is not a probe. *)
Definition operations (log : list Call) : list Call :=
  filter (fun c => is_probe c = false) log.

(** ** Programs *)

Inductive Prog (A : Type) : Type :=
| Ret (a : A)
| Raise (e : Exn)
| Op (c : Call) (k : Exn + resp c -> Prog A).

Arguments Ret {A} a.
Arguments Raise {A} e.
Arguments Op {A} c k.

Fixpoint prog_bind {A B} (f : A -> Prog B) (p : Prog A) : Prog B :=
  match p with
  | Ret a => f a
  | Raise e => Raise e
  | Op c k => Op c (fun r => prog_bind f (k r))
  end.

#[global] Instance prog_mret : MRet Prog := fun _ a => Ret a.
#[global] Instance prog_mbind : MBind Prog := fun _ _ f p => prog_bind f p.

(** One call: its value, or the exception it raised. *)
Definition call (c : Call) : Prog (resp c) :=
  Op c (fun r => match r with inl e => Raise e | inr v => Ret v end).

(** [try: body / except ...: handler].  [handler e] is [None] when no
    [except] clause matches [e]; an exception of the handler itself is not
    caught again. *)
Fixpoint try_except {A} (body : Prog A) (handler : Exn -> option (Prog A))
  : Prog A :=
  match body with
  | Ret a => Ret a
  | Raise e => match handler e with Some h => h | None => Raise e end
  | Op c k => Op c (fun r => try_except (k r) handler)
  end.

(** [for x in xs: body x]. *)
Fixpoint for_each {X} (xs : list X) (body : X -> Prog unit) : Prog unit :=
  match xs with
  | [] => Ret tt
  | x :: r => body x;; for_each r body
  end.

(** The environment answers every call, knowing the calls made so far. *)
Definition World : Type := list Call -> forall c : Call, Exn + resp c.

Definition Outcome (A : Type) : Type := (list Call * (Exn + A))%type.

(** [run w log p]: the log extended with the calls of [p], and how [p]
    ended. *)
Fixpoint run {A} (w : World) (log : list Call) (p : Prog A) : Outcome A :=
  match p with
  | Ret a => (log, inr a)
  | Raise e => (log, inl e)
  | Op c k => run w (log ++ [c]) (k (w log c))
  end.

Definition py_format (t : string) (kwargs : list (string * PyStr.FormatArg))
  : Prog string :=
  match PyStr.format t kwargs with
  | Some s => Ret s
  | None => Raise FormatError
  end.

(** Attribute lookup: the value, or [AttributeError]. *)
Definition getattr {A} (name : string) (v : option A) : Prog A :=
  match v with
  | Some a => Ret a
  | None => Raise (AttributeError name)
  end.

(** [self.subprocess.run(args, env=..., check=..., cwd=...)]: the child's
    exit status; with [check=True] a non-zero status raises
    [CalledProcessError], as in the standard [subprocess] module. *)
Definition subprocess_run (args : list string)
    (env : option (gmap string string)) (check : bool) (cwd : option string)
  : Prog Z :=
  rc ← call (SubprocessRun args env check cwd);
  if (check && negb (rc =? 0))%bool then Raise (CalledProcessError rc)
  else Ret rc.

(** [dict(pairs)]: a later pair overrides an earlier one with the same key. *)
Definition py_dict (pairs : list (string * string)) : gmap string string :=
  fold_left (fun m kv => <[kv.1 := kv.2]> m) pairs ∅.

(** ** The module [briefcase.platforms.android.apk] *)

(** [BaseConfig]: the attributes of an app the module reads. *)
Record BaseConfig : Type := {
  app_name : string;
  bundle : string;
  formal_name : string
}.

Definition app_attr (app : BaseConfig) (a : string) : option string :=
  if String.eqb a "app_name" then Some (app_name app)
  else if String.eqb a "bundle" then Some (bundle app)
  else if String.eqb a "formal_name" then Some (formal_name app)
  else None.

(** The six command classes the module declares; each lists [ApkMixin]
    before the briefcase base command. *)
Inductive CommandClass : Type :=
| ApkCreateCommand
| ApkUpdateCommand
| ApkBuildCommand
| ApkRunCommand
| ApkPackageCommand
| ApkPublishCommand.

(** A command object.  The fields are what the module takes from outside
    its own classes: the home directory ([Path.home()]), the attributes of
    the briefcase base commands ([platform_path], [bundle_path],
    [python_version_tag], [host_os]) and the process environment
    ([self.os.environ]).  The last two fields are the attributes
    [android_sdk_url] and [android_sdk_path_tmp] as the base classes supply
    them, [None] when they supply none: [ApkBuildCommand] alone defines
    [android_sdk_url], and no class of the module defines
    [android_sdk_path_tmp]. *)
Record Self : Type := {
  cls : CommandClass;
  home : Path;
  platform_path : Path;
  bundle_path : BaseConfig -> Path;
  python_version_tag : string;
  host_os : string;
  environ : gmap string string;
  inherited_android_sdk_url : option string;
  inherited_android_sdk_path_tmp : option Path
}.

Definition self_attr (self : Self) (a : string) : option string :=
  if String.eqb a "python_version_tag" then Some (python_version_tag self)
  else if String.eqb a "host_os" then Some (host_os self)
  else None.

Definition mode_755 : Z := 493.

Definition WRONG_PYTHON_MESSAGE : string :=
  "Found Python version {self.python_version_tag}. Android packaging currently"
  +:+ PyStr.nl +:+ "requires Python 3.7.".

Definition NO_DEVICE_MESSAGE : string :=
  "Please specify a specific device on which to run the app by passing"
  +:+ PyStr.nl +:+ "`-d device_name`.".

Definition NO_OR_WRONG_DEVICE_MESSAGE : string :=
  "You can get a list of valid devices by running this command and looking in the"
  +:+ PyStr.nl +:+
  "first column of output." +:+ PyStr.nl +:+ PyStr.nl +:+
  "$ {adb} devices -l" +:+ PyStr.nl +:+ PyStr.nl +:+
  "If you do not see any devices, you can create one by running these commands:"
  +:+ PyStr.nl +:+ PyStr.nl +:+
  "$ {tools_bin}/sdkmanager " +:+ PyStr.dquote +:+ "platforms;android-28"
  +:+ PyStr.dquote +:+ "     " +:+ PyStr.dquote
  +:+ "system-images;android-28;default;x86" +:+ PyStr.dquote +:+ " "
  +:+ PyStr.dquote +:+ "emulator" +:+ PyStr.dquote +:+ " " +:+ PyStr.dquote
  +:+ "platform-tools" +:+ PyStr.dquote +:+ PyStr.nl +:+ PyStr.nl +:+
  "$ {tools_bin}/avdmanager --verbose create avd --name robotfriend "
  +:+ "    --abi x86 --package 'system-images;android-28;default;x86' --device pixel"
  +:+ PyStr.nl +:+ PyStr.nl +:+
  "$ {emulator} -avd robotfriend &" +:+ PyStr.nl +:+ PyStr.nl +:+
  "Then use adb find out the device name by running this command and looking"
  +:+ PyStr.nl +:+
  "in the first column of output." +:+ PyStr.nl +:+ PyStr.nl +:+
  "$ {adb} devices -l" +:+ PyStr.nl.

Module ApkMixin.

Definition output_format : string := "apk".
Definition platform : string := "android".

Definition android_sdk_path (self : Self) : Path :=
  home self </> ".briefcase" </> "tools" </> "android_sdk".

Definition binary_path (self : Self) (app : BaseConfig) : Path :=
  platform_path self </> formal_name app </> "app" </> "build"
    </> "outputs" </> "apk" </> "debug" </> "app-debug.apk".

Definition distribution_path (self : Self) (app : BaseConfig) : Path :=
  binary_path self app.

(** [self.android_sdk_url]: the property of [ApkBuildCommand], or what
    the base classes supply. *)
Definition android_sdk_url (self : Self) : option string :=
  match cls self with
  | ApkBuildCommand =>
      PyStr.format "sdk-tools-{os}-4333796.zip"
        [("os", PyStr.FStr (PyStr.lower (host_os self)))]
      ≫= fun file => Some ("https://dl.google.com/android/repository/" +:+ file)
  | _ => inherited_android_sdk_url self
  end.

Definition android_sdk_path_tmp (self : Self) : option Path :=
  inherited_android_sdk_path_tmp self.

Definition verify_tools (self : Self) : Prog unit :=
  if negb (String.eqb (python_version_tag self) "3.7") then
    msg ← py_format WRONG_PYTHON_MESSAGE
            [("self", PyStr.FObj (self_attr self))];
    Raise (BriefcaseCommandError msg)
  else
    present ← call (PathExists (android_sdk_path self));
    if negb present then
      call (Print "Setting up Android SDK...");;
      android_sdk_zip_path ←
        try_except
          (url ← getattr "android_sdk_url" (android_sdk_url self);
           call (DownloadUrl url (home self </> ".briefcase" </> "tools")))
          (fun e =>
             match e with
             | RequestsConnectionError =>
                 Some (Raise (NetworkFailure "downloading Android SDK"))
             | _ => None
             end);
      call (ZipExtractAll android_sdk_zip_path (android_sdk_path self));;
      call (Unlink android_sdk_zip_path);;
      tmp ← getattr "android_sdk_path_tmp" (android_sdk_path_tmp self);
      let tools_bin := tmp </> "tools" </> "bin" in
      binpaths ← call (Glob tools_bin "*");
      for_each binpaths (fun binpath => call (PathChmod binpath mode_755));;
      call (Print "Ensuring all Android SDK licenses are accepted...");;
      subprocess_run [path_str (tools_bin </> "sdkmanager"); "--licenses"]
        None true (Some (path_str (android_sdk_path self)));;
      mret tt
    else mret tt.

End ApkMixin.

Module ApkBuildCommand.

Definition description : string := "Build an Android APK.".

(** The [env=] argument of the build: the inherited environment with the
    toolchain root appended as a last pair. *)
Definition build_env (self : Self) : gmap string string :=
  py_dict (map_to_list (environ self)
           ++ [("ANDROID_SDK_ROOT", path_str (ApkMixin.android_sdk_path self))]).

Definition build_app (self : Self) (app : BaseConfig) : Prog unit :=
  banner ← py_format "[{app.app_name}] Building Android APK..."
             [("app", PyStr.FObj (app_attr app))];
  call (Print banner);;
  try_except
    (subprocess_run ["./gradlew"; "assembleDebug"]
       (Some (build_env self)) true
       (Some (path_str (bundle_path self app)));;
     call (OsChmod (path_str (ApkMixin.binary_path self app)) mode_755))
    (fun e =>
       match e with
       | CalledProcessError _ =>
           Some (msg ← py_format "Error while building app {app.app_name}."
                         [("app", PyStr.FObj (app_attr app))];
                 Raise (BriefcaseCommandError msg))
       | _ => None
       end).

End ApkBuildCommand.

Module ApkRunCommand.

Definition description : string := "Run an Android APK.".

Definition MAIN_ACTIVITY : string := "org.beeware.android.MainActivity".

Definition help_args (self : Self) : list (string * PyStr.FormatArg) :=
  let sdk := ApkMixin.android_sdk_path self in
  [("adb", FPath (sdk </> "platform-tools" </> "adb"));
   ("emulator", FPath (sdk </> "emulator" </> "emulator"));
   ("tools_bin", FPath (sdk </> "tools" </> "bin"))].

Definition verify_tools (self : Self) : Prog unit :=
  ApkMixin.verify_tools self;;
  present ← call (PathExists (ApkMixin.android_sdk_path self </> "emulator"));
  if negb present then
    call (Print "Ensuring we have the Android emulator and system image...");;
    subprocess_run
      [path_str (ApkMixin.android_sdk_path self
                 </> "tools" </> "bin" </> "sdkmanager");
       "platforms;android-28";
       "system-images;android-28;default;x86";
       "emulator";
       "platform-tools"]
      None false None;;
    mret tt
  else mret tt.

Definition run_app (self : Self) (app : BaseConfig) (device : option string)
  : Prog unit :=
  match device with
  | None =>
      msg ← py_format (PyStr.lstrip NO_DEVICE_MESSAGE) (help_args self);
      Raise (BriefcaseCommandError msg)
  | Some device =>
      let sdk := ApkMixin.android_sdk_path self in
      try_except
        (call (InstallApk sdk device (ApkMixin.binary_path self app)))
        (fun e =>
           match e with
           | DeviceNotFound =>
               Some (line ← py_format "Device {device} not found."
                              [("device", PyStr.FStr device)];
                     call (Print line);;
                     call (Print "");;
                     msg ← py_format NO_OR_WRONG_DEVICE_MESSAGE
                             (help_args self);
                     Raise (BriefcaseCommandError msg))
           | _ => None
           end);;
      package ← py_format "{app.bundle}.{app.app_name}"
                  [("app", PyStr.FObj (app_attr app))];
      call (ForceStopApp sdk device package);;
      call (StartApp sdk device package MAIN_ACTIVITY)
  end.

End ApkRunCommand.

(** Method resolution: [ApkRunCommand] overrides [verify_tools]; every
    other class, and every class for the path methods, takes the method of
    [ApkMixin]. *)
Definition verify_tools (self : Self) : Prog unit :=
  match cls self with
  | ApkRunCommand => ApkRunCommand.verify_tools self
  | _ => ApkMixin.verify_tools self
  end.

Definition binary_path (self : Self) (app : BaseConfig) : Path :=
  ApkMixin.binary_path self app.

Definition distribution_path (self : Self) (app : BaseConfig) : Path :=
  ApkMixin.distribution_path self app.

(** ** The texts the commands produce *)

(** The version error of [verify_tools]. *)
Definition wrong_python_text (tag : string) : string :=
  "Found Python version " +:+ tag +:+ ". Android packaging currently"
  +:+ PyStr.nl +:+ "requires Python 3.7.".

(** The line [run_app] prints for an unknown device. *)
Definition not_found_line (device : string) : string :=
  "Device " +:+ device +:+ " not found.".

(** The remediation script as the user reads it. *)
Definition device_help (self : Self) : string :=
  let sdk := ApkMixin.android_sdk_path self in
  let adb := path_str (sdk </> "platform-tools" </> "adb") in
  let emulator := path_str (sdk </> "emulator" </> "emulator") in
  let tools_bin := path_str (sdk </> "tools" </> "bin") in
  "You can get a list of valid devices by running this command and looking in the"
  +:+ PyStr.nl +:+
  "first column of output." +:+ PyStr.nl +:+ PyStr.nl +:+
  "$ " +:+ adb +:+ " devices -l" +:+ PyStr.nl +:+ PyStr.nl +:+
  "If you do not see any devices, you can create one by running these commands:"
  +:+ PyStr.nl +:+ PyStr.nl +:+
  "$ " +:+ tools_bin +:+ "/sdkmanager " +:+ PyStr.dquote
  +:+ "platforms;android-28" +:+ PyStr.dquote +:+ "     " +:+ PyStr.dquote
  +:+ "system-images;android-28;default;x86" +:+ PyStr.dquote +:+ " "
  +:+ PyStr.dquote +:+ "emulator" +:+ PyStr.dquote +:+ " " +:+ PyStr.dquote
  +:+ "platform-tools" +:+ PyStr.dquote +:+ PyStr.nl +:+ PyStr.nl +:+
  "$ " +:+ tools_bin +:+ "/avdmanager --verbose create avd --name robotfriend "
  +:+ "    --abi x86 --package 'system-images;android-28;default;x86' --device pixel"
  +:+ PyStr.nl +:+ PyStr.nl +:+
  "$ " +:+ emulator +:+ " -avd robotfriend &" +:+ PyStr.nl +:+ PyStr.nl +:+
  "Then use adb find out the device name by running this command and looking"
  +:+ PyStr.nl +:+
  "in the first column of output." +:+ PyStr.nl +:+ PyStr.nl +:+
  "$ " +:+ adb +:+ " devices -l" +:+ PyStr.nl.

(** The package identity on the device. *)
Definition package_of (app : BaseConfig) : string :=
  bundle app +:+ "." +:+ app_name app.

(** The banner and the error of [build_app]. *)
Definition banner_of (app : BaseConfig) : string :=
  "[" +:+ app_name app +:+ "] Building Android APK...".

Definition build_error_of (app : BaseConfig) : string :=
  "Error while building app " +:+ app_name app +:+ ".".

(** ** Worlds *)

(** A call answered without an exception. *)
Definition ok (w : World) (log : list Call) (c : Call) : Prop :=
  exists v, w log c = inr v.

Definition never_raises (w : World) : Prop := forall log c, ok w log c.

(** Shorthands for the calls of the statements below. *)
Abbreviation sdk_root self := (ApkMixin.android_sdk_path self) (only parsing).
Abbreviation sdk_cache self := (home self </> ".briefcase" </> "tools") (only parsing).
Abbreviation setting_up := (Print "Setting up Android SDK...") (only parsing).

Abbreviation accepting_licenses :=
  (Print "Ensuring all Android SDK licenses are accepted...") (only parsing).

Abbreviation install_of self app device :=
  (InstallApk (sdk_root self) device (ApkMixin.binary_path self app))
  (only parsing).

Abbreviation gradle_of self app :=
  (SubprocessRun ["./gradlew"; "assembleDebug"]
     (Some (ApkBuildCommand.build_env self)) true
     (Some (path_str (bundle_path self app))))
  (only parsing).

(** ** Sample objects and worlds *)

Definition sample_app : BaseConfig :=
  {| app_name := "helloworld"; bundle := "org.example";
     formal_name := "Hello World" |}.

Definition sample_self (c : CommandClass) (tag : string) : Self :=
  {| cls := c;
     home := [""; "home"; "user"];
     platform_path := [""; "home"; "user"; "proj"; "android"];
     bundle_path := fun app =>
       [""; "home"; "user"; "proj"; "android"] </> formal_name app;
     python_version_tag := tag;
     host_os := "Linux";
     environ := {[ "PATH" := "/usr/bin"; "ANDROID_SDK_ROOT" := "/opt/old" ]};
     inherited_android_sdk_url := None;
     inherited_android_sdk_path_tmp := None |}.

(** A world in which the toolchain is absent, every call succeeds and every
    child exits with status 0. *)
Definition fresh_world : World :=
  fun _ c =>
    match c return Exn + resp c with
    | PathExists _ => inr false
    | Glob dir _ => inr [dir </> "sdkmanager"; dir </> "avdmanager"]
    | DownloadUrl _ dir => inr (dir </> "sdk-tools.zip")
    | SubprocessRun _ _ _ _ => inr 0
    | Print _ | ZipExtractAll _ _ | Unlink _ | PathChmod _ _ | OsChmod _ _
    | InstallApk _ _ _ | ForceStopApp _ _ _ | StartApp _ _ _ _ => inr tt
    end.

(** A world in which the toolchain root is present. *)
Definition provisioned_world : World :=
  fun log c =>
    match c as c0 return Exn + resp c0 with
    | PathExists _ => inr true
    | c0 => fresh_world log c0
    end.

(** A world in which the toolchain is absent and the download fails. *)
Definition offline_world : World :=
  fun log c =>
    match c as c0 return Exn + resp c0 with
    | DownloadUrl _ _ => inl RequestsConnectionError
    | c0 => fresh_world log c0
    end.

(** A world whose device bridge does not know the device. *)
Definition no_device_world : World :=
  fun log c =>
    match c as c0 return Exn + resp c0 with
    | InstallApk _ _ _ => inl DeviceNotFound
    | c0 => fresh_world log c0
    end.

(** A world whose build tool exits with status 1. *)
Definition failing_build_world : World :=
  fun log c =>
    match c as c0 return Exn + resp c0 with
    | SubprocessRun _ _ _ _ => inr 1
    | c0 => fresh_world log c0
    end.

(** A world whose download facility reports a missing resource. *)
Definition http_error_world : World :=
  fun log c =>
    match c as c0 return Exn + resp c0 with
    | DownloadUrl _ _ => inl (OtherException "MissingNetworkResourceError")
    | c0 => fresh_world log c0
    end.

(** A world in which the downloaded archive cannot be read. *)
Definition bad_zip_world : World :=
  fun log c =>
    match c as c0 return Exn + resp c0 with
    | ZipExtractAll _ _ => inl (OtherException "BadZipFile")
    | c0 => fresh_world log c0
    end.

(** A world in which the first path tested exists and no other does, and
    every child exits with status 1. *)
Definition no_emulator_world : World :=
  fun log c =>
    match c as c0 return Exn + resp c0 with
    | PathExists _ => inr (match log with [] => true | _ => false end)
    | SubprocessRun _ _ _ _ => inr 1
    | c0 => fresh_world log c0
    end.

(** Worlds whose device bridge fails at the install, at the force-stop and
    at the start. *)
Definition install_error_world : World :=
  fun log c =>
    match c as c0 return Exn + resp c0 with
    | InstallApk _ _ _ => inl (BriefcaseCommandError "Unable to install APK")
    | c0 => fresh_world log c0
    end.

Definition stop_error_world : World :=
  fun log c =>
    match c as c0 return Exn + resp c0 with
    | ForceStopApp _ _ _ => inl DeviceNotFound
    | c0 => fresh_world log c0
    end.

Definition start_error_world : World :=
  fun log c =>
    match c as c0 return Exn + resp c0 with
    | StartApp _ _ _ _ => inl (BriefcaseCommandError "Unable to start app")
    | c0 => fresh_world log c0
    end.

(** A world without the build tool. *)
Definition missing_gradle_world : World :=
  fun log c =>
    match c as c0 return Exn + resp c0 with
    | SubprocessRun _ _ _ _ => inl (OtherException "FileNotFoundError")
    | c0 => fresh_world log c0
    end.

(** A build command whose base class points [android_sdk_path_tmp] at the
    toolchain root. *)
Definition sample_self_tmp : Self :=
  {| cls := ApkBuildCommand;
     home := [""; "home"; "user"];
     platform_path := [""; "home"; "user"; "proj"; "android"];
     bundle_path := fun app =>
       [""; "home"; "user"; "proj"; "android"] </> formal_name app;
     python_version_tag := "3.7";
     host_os := "Darwin";
     environ := ∅;
     inherited_android_sdk_url := None;
     inherited_android_sdk_path_tmp :=
       Some [""; "home"; "user"; ".briefcase"; "tools"; "android_sdk"] |}.

Definition is_download (c : Call) : bool :=
  match c with
  | DownloadUrl _ _ => true
  | _ => false
  end.

Definition is_os_chmod (c : Call) : bool :=
  match c with
  | OsChmod _ _ => true
  | _ => false
  end.

Abbreviation emulator_tools :=
  (Print "Ensuring we have the Android emulator and system image...")
  (only parsing).

Abbreviation sdkmanager_of self :=
  (SubprocessRun
     [path_str (sdk_root self </> "tools" </> "bin" </> "sdkmanager");
      "platforms;android-28";
      "system-images;android-28;default;x86";
      "emulator";
      "platform-tools"]
     None false None)
  (only parsing).

(** ** Python strings: checks *)

Example format_demo :
  PyStr.format "a {x} {{b}} {p.q}"
    [("x", PyStr.FStr "1"); ("p", PyStr.FObj (fun a => Some (a +:+ "!")))]
  = Some "a 1 {b} q!".
Proof. reflexivity. Qed.

Lemma help_format_ok self :
  PyStr.format NO_OR_WRONG_DEVICE_MESSAGE (ApkRunCommand.help_args self)
  = Some (device_help self).
Proof. reflexivity. Qed.

(** ** The equations of [run] *)

Section RunEquations.

Context (w : World).

Lemma run_ret {A} (log : list Call) (a : A) :
  run w log (mret a) = (log, inr a).
Proof. reflexivity. Qed.

Lemma run_call (log : list Call) (c : Call) :
  run w log (call c) = (log ++ [c], w log c).
Proof. simpl. by destruct (w log c). Qed.

Lemma run_bind {A B} (p : Prog A) (f : A -> Prog B) (log : list Call) :
  run w log (p ≫= f) =
  match run w log p with
  | (log', inr a) => run w log' (f a)
  | (log', inl e) => (log', inl e)
  end.
Proof.
  revert log. induction p as [a|e|c k IH]; intros log; try reflexivity.
  simpl. apply IH.
Qed.

Lemma run_try_except {A} (p : Prog A) (h : Exn -> option (Prog A))
    (log : list Call) :
  run w log (try_except p h) =
  match run w log p with
  | (log', inl e) =>
      match h e with
      | Some q => run w log' q
      | None => (log', inl e)
      end
  | r => r
  end.
Proof.
  revert log. induction p as [a|e|c k IH]; intros log; simpl.
  - reflexivity.
  - by destruct (h e).
  - apply IH.
Qed.

(** The log only grows. *)
Lemma run_extends {A} (p : Prog A) (log : list Call) :
  exists more, (run w log p).1 = log ++ more.
Proof.
  revert log. induction p as [a|e|c k IH]; intros log; simpl.
  - exists []. by rewrite app_nil_r.
  - exists []. by rewrite app_nil_r.
  - destruct (IH (w log c) (log ++ [c])) as [more Hm].
    exists (c :: more). rewrite Hm. by rewrite <- app_assoc.
Qed.

End RunEquations.

Lemma py_format_eq t kwargs s :
  PyStr.format t kwargs = Some s -> py_format t kwargs = Ret s.
Proof. intros H. unfold py_format. by rewrite H. Qed.

(** Rewrites the first [run w log (call c)] of the goal with [run_call],
    at the response type of [c]. *)
Ltac run_call_step :=
  match goal with
  | |- context [run ?w ?l (call ?c)] =>
      let H := fresh "Hcall" in
      pose proof (run_call w l c) as H;
      first [ rewrite H | cbn [resp] in H; rewrite H ]; clear H
  end.

(** Symbolic execution up to the next answer of the world. *)
Ltac exec :=
  cbn [run mbind mret prog_mbind prog_mret prog_bind try_except call getattr
       negb andb];
  rewrite <- ?app_assoc; cbn [app].


(** ** Paths of the artifact *)

(** C10: for every command class and every app, [distribution_path] is
    [binary_path], the fixed debug APK below the platform directory. *)
Theorem distribution_path_is_binary_path (self : Self) (app : BaseConfig) :
  distribution_path self app = binary_path self app
  /\ binary_path self app
     = platform_path self
       ++ [formal_name app; "app"; "build"; "outputs"; "apk"; "debug";
           "app-debug.apk"].
Proof.
  split; [reflexivity|].
  unfold binary_path, ApkMixin.binary_path, path_div.
  by rewrite <- !app_assoc.
Qed.

(** ** The Python version gate *)

Lemma wrong_python_format_ok self :
  PyStr.format WRONG_PYTHON_MESSAGE [("self", PyStr.FObj (self_attr self))]
  = Some (wrong_python_text (python_version_tag self)).
Proof. reflexivity. Qed.

Lemma mixin_verify_tools_wrong_python w log self :
  python_version_tag self <> "3.7" ->
  run w log (ApkMixin.verify_tools self)
  = (log, inl (BriefcaseCommandError
                 (wrong_python_text (python_version_tag self)))).
Proof.
  intros Htag. unfold ApkMixin.verify_tools.
  apply String.eqb_neq in Htag. rewrite Htag. cbn [negb].
  by rewrite (py_format_eq _ _ _ (wrong_python_format_ok self)).
Qed.

(** C8: whenever the Python version tag is not 3.7, [verify_tools] of every
    command class raises the version error at once: nothing is logged, so
    the toolchain root is not even tested and no download is attempted. *)
Theorem verify_tools_wrong_python (w : World) (log : list Call) (self : Self) :
  python_version_tag self <> "3.7" ->
  run w log (verify_tools self)
  = (log, inl (BriefcaseCommandError
                 (wrong_python_text (python_version_tag self)))).
Proof.
  intros Htag. unfold verify_tools.
  destruct (cls self);
    try (by apply mixin_verify_tools_wrong_python).
  unfold ApkRunCommand.verify_tools.
  rewrite run_bind.
  by rewrite (mixin_verify_tools_wrong_python w log self Htag).
Qed.

Lemma verify_tools_wrong_python_witness :
  python_version_tag (sample_self ApkRunCommand "3.9") <> "3.7"
  /\ run fresh_world [] (verify_tools (sample_self ApkRunCommand "3.9"))
     = ([], inl (BriefcaseCommandError
                   ("Found Python version 3.9. Android packaging currently"
                    +:+ PyStr.nl +:+ "requires Python 3.7."))).
Proof.
  split; [discriminate|].
  apply (verify_tools_wrong_python fresh_world [] (sample_self ApkRunCommand "3.9")).
  discriminate.
Defined.

(** ** Provisioning the toolchain *)

Lemma operations_app (l1 l2 : list Call) :
  operations (l1 ++ l2) = operations l1 ++ operations l2.
Proof. apply filter_app. Qed.

(** C5: with Python 3.7 and the toolchain root present, provisioning
    returns at once.  Its only interaction is the existence test that
    guards it: no download, no extraction, no deletion, no permission
    change, no subprocess; the operations logged before the call are the
    operations logged after it. *)
Theorem provisioning_idempotent (w : World) (log : list Call) (self : Self) :
  python_version_tag self = "3.7" ->
  w log (PathExists (ApkMixin.android_sdk_path self)) = inr true ->
  run w log (ApkMixin.verify_tools self)
  = (log ++ [PathExists (ApkMixin.android_sdk_path self)], inr tt)
  /\ operations (run w log (ApkMixin.verify_tools self)).1 = operations log.
Proof.
  intros Htag Hroot.
  assert (Hrun : run w log (ApkMixin.verify_tools self)
                 = (log ++ [PathExists (ApkMixin.android_sdk_path self)], inr tt)).
  { unfold ApkMixin.verify_tools. rewrite Htag, String.eqb_refl. cbn [negb].
    rewrite run_bind. run_call_step. by rewrite Hroot. }
  split; [exact Hrun|].
  rewrite Hrun. cbn [fst]. rewrite operations_app. cbn. apply app_nil_r.
Qed.

Lemma provisioning_idempotent_witness :
  run provisioned_world []
    (ApkMixin.verify_tools (sample_self ApkBuildCommand "3.7"))
  = ([PathExists [""; "home"; "user"; ".briefcase"; "tools"; "android_sdk"]],
     inr tt).
Proof.
  apply (provisioning_idempotent provisioned_world []
           (sample_self ApkBuildCommand "3.7")); reflexivity.
Defined.

(** C7: when the download of the SDK archive raises the connection error
    of the transport layer, [verify_tools] raises [NetworkFailure] with the
    action [downloading Android SDK] in its place; the download is the last
    call made. *)
Theorem download_failure_is_network_failure
    (w : World) (log : list Call) (self : Self) (url : string) :
  python_version_tag self = "3.7" ->
  ApkMixin.android_sdk_url self = Some url ->
  w log (PathExists (sdk_root self)) = inr false ->
  ok w (log ++ [PathExists (sdk_root self)]) setting_up ->
  w (log ++ [PathExists (sdk_root self); setting_up])
    (DownloadUrl url (sdk_cache self)) = inl RequestsConnectionError ->
  run w log (verify_tools self)
  = (log ++ [PathExists (sdk_root self); setting_up;
             DownloadUrl url (sdk_cache self)],
     inl (NetworkFailure "downloading Android SDK")).
Proof.
  intros Htag Hurl Hroot [[] Hprint] Hdl.
  assert (Hmixin : run w log (ApkMixin.verify_tools self)
     = (log ++ [PathExists (sdk_root self); setting_up;
                DownloadUrl url (sdk_cache self)],
        inl (NetworkFailure "downloading Android SDK"))).
  { unfold ApkMixin.verify_tools. rewrite Htag, String.eqb_refl. cbn [negb].
    exec. rewrite Hroot. exec. rewrite Hprint. exec.
    rewrite Hurl. exec. rewrite Hdl. by exec. }
  unfold verify_tools. destruct (cls self); try exact Hmixin.
  unfold ApkRunCommand.verify_tools. rewrite run_bind. by rewrite Hmixin.
Qed.

Lemma download_failure_is_network_failure_witness :
  run offline_world [] (verify_tools (sample_self ApkBuildCommand "3.7"))
  = ([PathExists [""; "home"; "user"; ".briefcase"; "tools"; "android_sdk"];
      Print "Setting up Android SDK...";
      DownloadUrl
        "https://dl.google.com/android/repository/sdk-tools-linux-4333796.zip"
        [""; "home"; "user"; ".briefcase"; "tools"]],
     inl (NetworkFailure "downloading Android SDK")).
Proof.
  apply (download_failure_is_network_failure offline_world []
           (sample_self ApkBuildCommand "3.7")
           "https://dl.google.com/android/repository/sdk-tools-linux-4333796.zip");
    try reflexivity.
  exists tt. reflexivity.
Defined.

(** The mode given to the tool binaries carries the owner-execute bit. *)
Lemma mode_755_owner_execute : Z.testbit mode_755 6 = true.
Proof. reflexivity. Qed.

(** C1 (what the code does): with Python 3.7, the toolchain root absent and
    every collaborator succeeding, provisioning downloads the archive,
    extracts it into the toolchain root and deletes it, and then stops with
    [AttributeError]: [tools_bin] is built from [self.android_sdk_path_tmp],
    an attribute no class of the module defines.  No permission is set and
    the license tool is never run. *)
Theorem provisioning_stops_after_unlink
    (w : World) (log : list Call) (self : Self) (url : string) :
  python_version_tag self = "3.7" ->
  ApkMixin.android_sdk_url self = Some url ->
  ApkMixin.android_sdk_path_tmp self = None ->
  w log (PathExists (sdk_root self)) = inr false ->
  never_raises w ->
  exists zip : Path,
    run w log (ApkMixin.verify_tools self)
    = (log ++ [PathExists (sdk_root self); setting_up;
               DownloadUrl url (sdk_cache self);
               ZipExtractAll zip (sdk_root self);
               Unlink zip],
       inl (AttributeError "android_sdk_path_tmp")).
Proof.
  intros Htag Hurl Htmp Hroot Hw.
  unfold ApkMixin.verify_tools. rewrite Htag, String.eqb_refl. cbn [negb].
  exec. rewrite Hroot. exec.
  destruct (Hw (log ++ [PathExists (sdk_root self)]) setting_up) as [[] ->].
  exec. rewrite Hurl. exec.
  destruct (Hw (log ++ [PathExists (sdk_root self); setting_up])
              (DownloadUrl url (sdk_cache self))) as [zip ->].
  exists zip. exec.
  destruct (Hw (log ++ [PathExists (sdk_root self); setting_up;
                        DownloadUrl url (sdk_cache self)])
              (ZipExtractAll zip (sdk_root self))) as [[] ->].
  exec.
  destruct (Hw (log ++ [PathExists (sdk_root self); setting_up;
                        DownloadUrl url (sdk_cache self);
                        ZipExtractAll zip (sdk_root self)])
              (Unlink zip)) as [[] ->].
  exec. rewrite Htmp. by exec.
Qed.

Lemma fresh_world_never_raises : never_raises fresh_world.
Proof. intros log c. unfold ok. destruct c; simpl; eauto. Qed.

Lemma provisioning_stops_after_unlink_witness :
  exists zip : Path,
    run fresh_world [] (ApkMixin.verify_tools (sample_self ApkBuildCommand "3.7"))
    = ([PathExists [""; "home"; "user"; ".briefcase"; "tools"; "android_sdk"];
        Print "Setting up Android SDK...";
        DownloadUrl
          "https://dl.google.com/android/repository/sdk-tools-linux-4333796.zip"
          [""; "home"; "user"; ".briefcase"; "tools"];
        ZipExtractAll zip
          [""; "home"; "user"; ".briefcase"; "tools"; "android_sdk"];
        Unlink zip],
       inl (AttributeError "android_sdk_path_tmp")).
Proof.
  apply (provisioning_stops_after_unlink fresh_world []
           (sample_self ApkBuildCommand "3.7")
           "https://dl.google.com/android/repository/sdk-tools-linux-4333796.zip");
    try reflexivity.
  exact fresh_world_never_raises.
Defined.

(** X18: a command class without [android_sdk_url] (every class but
    [ApkBuildCommand], unless a base class supplies the attribute) stops
    with [AttributeError] once the toolchain root is found absent: the
    arguments of the download cannot be evaluated, nothing is
    downloaded. *)
Lemma provisioning_without_url
    (w : World) (log : list Call) (self : Self) :
  python_version_tag self = "3.7" ->
  ApkMixin.android_sdk_url self = None ->
  w log (PathExists (sdk_root self)) = inr false ->
  ok w (log ++ [PathExists (sdk_root self)]) setting_up ->
  run w log (ApkMixin.verify_tools self)
  = (log ++ [PathExists (sdk_root self); setting_up],
     inl (AttributeError "android_sdk_url")).
Proof.
  intros Htag Hurl Hroot [[] Hprint].
  unfold ApkMixin.verify_tools. rewrite Htag, String.eqb_refl. cbn [negb].
  exec. rewrite Hroot. exec. rewrite Hprint. exec. rewrite Hurl. by exec.
Qed.


(** The whole sequence on a sample command whose base class points
    [android_sdk_path_tmp] at the toolchain root. *)
Example provisioning_sequence_sample :
  let root := [""; "home"; "user"; ".briefcase"; "tools"; "android_sdk"] in
  let zip := [""; "home"; "user"; ".briefcase"; "tools"; "sdk-tools.zip"] in
  let self :=
    {| cls := ApkBuildCommand;
       home := [""; "home"; "user"];
       platform_path := [""; "home"; "user"; "proj"; "android"];
       bundle_path := fun app =>
         [""; "home"; "user"; "proj"; "android"] </> formal_name app;
       python_version_tag := "3.7";
       host_os := "Darwin";
       environ := ∅;
       inherited_android_sdk_url := None;
       inherited_android_sdk_path_tmp := Some root |} in
  run fresh_world [] (ApkMixin.verify_tools self)
  = ([PathExists root;
      Print "Setting up Android SDK...";
      DownloadUrl
        "https://dl.google.com/android/repository/sdk-tools-darwin-4333796.zip"
        [""; "home"; "user"; ".briefcase"; "tools"];
      ZipExtractAll zip root;
      Unlink zip;
      Glob (root </> "tools" </> "bin") "*";
      PathChmod (root </> "tools" </> "bin" </> "sdkmanager") 493;
      PathChmod (root </> "tools" </> "bin" </> "avdmanager") 493;
      Print "Ensuring all Android SDK licenses are accepted...";
      SubprocessRun
        ["/home/user/.briefcase/tools/android_sdk/tools/bin/sdkmanager";
         "--licenses"]
        None true (Some "/home/user/.briefcase/tools/android_sdk")],
     inr tt).
Proof. reflexivity. Qed.

(** ** Running the app on a device *)

Lemma append_empty_r (s : string) : s +:+ "" = s.
Proof.
  induction s as [|c s IH]; [reflexivity|].
  change (String c (s +:+ "") = String c s). by rewrite IH.
Qed.

Lemma package_format_ok app :
  PyStr.format "{app.bundle}.{app.app_name}" [("app", PyStr.FObj (app_attr app))]
  = Some (package_of app).
Proof.
  transitivity (Some (bundle app +:+ "." +:+ app_name app +:+ ""));
    [reflexivity|].
  unfold package_of. by rewrite append_empty_r.
Qed.

Lemma no_device_format_ok self :
  PyStr.format (PyStr.lstrip NO_DEVICE_MESSAGE) (ApkRunCommand.help_args self)
  = Some NO_DEVICE_MESSAGE.
Proof. reflexivity. Qed.

(** C2 (what the code does): without a device, [run_app] raises
    [BriefcaseCommandError] before any call is made, so nothing is
    installed, stopped or started.  The message is the two-line request for
    [-d device_name]: its template has no replacement field, so the [adb],
    [emulator] and [tools_bin] arguments of [format] are unused and none of
    the commands of the remediation script is part of it. *)
Theorem run_app_without_device
    (w : World) (log : list Call) (self : Self) (app : BaseConfig) :
  run w log (ApkRunCommand.run_app self app None)
  = (log, inl (BriefcaseCommandError NO_DEVICE_MESSAGE))
  /\ PyStr.contains "devices -l" NO_DEVICE_MESSAGE = false
  /\ PyStr.contains "sdkmanager" NO_DEVICE_MESSAGE = false
  /\ PyStr.contains "avdmanager" NO_DEVICE_MESSAGE = false
  /\ PyStr.contains "-avd" NO_DEVICE_MESSAGE = false.
Proof.
  split; [|by vm_compute].
  unfold ApkRunCommand.run_app.
  by rewrite (py_format_eq _ _ _ (no_device_format_ok self)).
Qed.

(** The script, by contrast, is what the wrong-device error carries. *)
Example device_help_has_script :
  let msg := device_help (sample_self ApkRunCommand "3.7") in
  PyStr.contains
    "$ /home/user/.briefcase/tools/android_sdk/platform-tools/adb devices -l" msg
  = true
  /\ PyStr.contains
       "$ /home/user/.briefcase/tools/android_sdk/tools/bin/avdmanager --verbose create avd"
       msg = true
  /\ PyStr.contains
       "$ /home/user/.briefcase/tools/android_sdk/emulator/emulator -avd robotfriend &"
       msg = true.
Proof. by vm_compute. Qed.

Lemma not_found_format_ok device :
  PyStr.format "Device {device} not found." [("device", PyStr.FStr device)]
  = Some (not_found_line device).
Proof. reflexivity. Qed.

(** C3: when the install step raises [DeviceNotFound], [run_app] reports
    the device on standard output and raises [BriefcaseCommandError] with
    the remediation script; the install is the only call to the device
    bridge, force-stop and start are not reached. *)
Theorem run_app_device_not_found
    (w : World) (log : list Call) (self : Self) (app : BaseConfig)
    (device : string) :
  w log (install_of self app device) = inl DeviceNotFound ->
  ok w (log ++ [install_of self app device]) (Print (not_found_line device)) ->
  ok w (log ++ [install_of self app device; Print (not_found_line device)])
    (Print "") ->
  run w log (ApkRunCommand.run_app self app (Some device))
  = (log ++ [install_of self app device; Print (not_found_line device);
             Print ""],
     inl (BriefcaseCommandError (device_help self))).
Proof.
  intros Hinstall [[] Hp1] [[] Hp2].
  unfold ApkRunCommand.run_app.
  rewrite run_bind, run_try_except. exec. rewrite Hinstall.
  rewrite (py_format_eq _ _ _ (not_found_format_ok device)).
  exec. rewrite Hp1. exec. rewrite Hp2.
  rewrite (py_format_eq _ _ _ (help_format_ok self)).
  by exec.
Qed.

(** X15: in every world, also one in which printing fails, an install
    that raises [DeviceNotFound] is the last call to the device bridge and
    [run_app] ends with an exception. *)
Lemma run_app_device_not_found_no_stop_start
    (w : World) (log : list Call) (self : Self) (app : BaseConfig)
    (device : string) :
  w log (install_of self app device) = inl DeviceNotFound ->
  exists (more : list Call) (e : Exn),
    run w log (ApkRunCommand.run_app self app (Some device))
    = (log ++ install_of self app device :: more, inl e)
    /\ Forall (fun c => is_adb c = false) more.
Proof.
  intros Hinstall.
  unfold ApkRunCommand.run_app.
  rewrite run_bind, run_try_except. exec. rewrite Hinstall.
  rewrite (py_format_eq _ _ _ (not_found_format_ok device)).
  exec.
  destruct (w (log ++ [install_of self app device])
              (Print (not_found_line device))) as [e1|[]] eqn:Hp1.
  { exists [Print (not_found_line device)], e1. exec. split; [done|].
    by repeat constructor. }
  exec.
  destruct (w (log ++ [install_of self app device; Print (not_found_line device)])
              (Print "")) as [e2|[]] eqn:Hp2.
  { exists [Print (not_found_line device); Print ""], e2. exec.
    split; [done|]. by repeat constructor. }
  rewrite (py_format_eq _ _ _ (help_format_ok self)).
  exists [Print (not_found_line device); Print ""],
    (BriefcaseCommandError (device_help self)).
  exec. split; [done|]. by repeat constructor.
Qed.

Lemma run_app_device_not_found_witness :
  run no_device_world []
    (ApkRunCommand.run_app (sample_self ApkRunCommand "3.7") sample_app
       (Some "emulator-5554"))
  = ([InstallApk
        [""; "home"; "user"; ".briefcase"; "tools"; "android_sdk"]
        "emulator-5554"
        [""; "home"; "user"; "proj"; "android"; "Hello World"; "app"; "build";
         "outputs"; "apk"; "debug"; "app-debug.apk"];
      Print "Device emulator-5554 not found.";
      Print ""],
     inl (BriefcaseCommandError (device_help (sample_self ApkRunCommand "3.7")))).
Proof.
  apply (run_app_device_not_found no_device_world []
           (sample_self ApkRunCommand "3.7") sample_app "emulator-5554").
  - reflexivity.
  - exists tt. reflexivity.
  - exists tt. reflexivity.
Defined.

(** C4: when every call to the device bridge succeeds, [run_app] makes
    exactly three calls: install, force-stop, start, in this order, all on
    the device given; force-stop and start address the package
    [bundle.app_name], and start launches the main activity. *)
Theorem run_app_install_stop_start
    (w : World) (log : list Call) (self : Self) (app : BaseConfig)
    (device : string) :
  (forall l c, is_adb c = true -> ok w l c) ->
  run w log (ApkRunCommand.run_app self app (Some device))
  = (log ++ [install_of self app device;
             ForceStopApp (sdk_root self) device (package_of app);
             StartApp (sdk_root self) device (package_of app)
               "org.beeware.android.MainActivity"],
     inr tt).
Proof.
  intros Hadb.
  unfold ApkRunCommand.run_app.
  rewrite run_bind, run_try_except. exec.
  destruct (Hadb log (install_of self app device) eq_refl) as [[] ->].
  rewrite (py_format_eq _ _ _ (package_format_ok app)).
  exec.
  match goal with
  | |- context [w ?l (ForceStopApp ?s ?d ?p)] =>
      destruct (Hadb l (ForceStopApp s d p) eq_refl) as [[] ->]
  end.
  exec.
  match goal with
  | |- context [w ?l (StartApp ?s ?d ?p ?a)] =>
      destruct (Hadb l (StartApp s d p a) eq_refl) as [[] ->]
  end.
  reflexivity.
Qed.

Lemma run_app_install_stop_start_witness :
  run fresh_world []
    (ApkRunCommand.run_app (sample_self ApkRunCommand "3.7") sample_app
       (Some "emulator-5554"))
  = ([InstallApk
        [""; "home"; "user"; ".briefcase"; "tools"; "android_sdk"]
        "emulator-5554"
        [""; "home"; "user"; "proj"; "android"; "Hello World"; "app"; "build";
         "outputs"; "apk"; "debug"; "app-debug.apk"];
      ForceStopApp
        [""; "home"; "user"; ".briefcase"; "tools"; "android_sdk"]
        "emulator-5554" "org.example.helloworld";
      StartApp
        [""; "home"; "user"; ".briefcase"; "tools"; "android_sdk"]
        "emulator-5554" "org.example.helloworld"
        "org.beeware.android.MainActivity"],
     inr tt).
Proof.
  apply (run_app_install_stop_start fresh_world []
           (sample_self ApkRunCommand "3.7") sample_app "emulator-5554").
  intros l c _. apply fresh_world_never_raises.
Defined.

(** ** Building the app *)

Lemma banner_format_ok app :
  PyStr.format "[{app.app_name}] Building Android APK..."
    [("app", PyStr.FObj (app_attr app))]
  = Some (banner_of app).
Proof. reflexivity. Qed.

Lemma build_error_format_ok app :
  PyStr.format "Error while building app {app.app_name}."
    [("app", PyStr.FObj (app_attr app))]
  = Some (build_error_of app).
Proof. reflexivity. Qed.

(** C6: when the build subprocess exits with a non-zero status,
    [build_app] raises [BriefcaseCommandError] with a message that names
    the app; the subprocess is the last call made, so [os.chmod] is not
    run on the artifact. *)
Theorem build_app_failure
    (w : World) (log : list Call) (self : Self) (app : BaseConfig) (rc : Z) :
  ok w log (Print (banner_of app)) ->
  w (log ++ [Print (banner_of app)]) (gradle_of self app) = inr rc ->
  rc <> 0 ->
  run w log (ApkBuildCommand.build_app self app)
  = (log ++ [Print (banner_of app); gradle_of self app],
     inl (BriefcaseCommandError (build_error_of app))).
Proof.
  intros [[] Hprint] Hrun Hrc.
  unfold ApkBuildCommand.build_app, subprocess_run.
  rewrite (py_format_eq _ _ _ (banner_format_ok app)).
  exec. rewrite Hprint. exec. rewrite Hrun.
  apply Z.eqb_neq in Hrc. exec. rewrite Hrc. exec.
  by rewrite (py_format_eq _ _ _ (build_error_format_ok app)).
Qed.

(** X11: when the build subprocess exits with status 0, [build_app] makes
    the artifact executable with [os.chmod] and mode 0o755, after the
    build, and returns. *)
Lemma build_app_success
    (w : World) (log : list Call) (self : Self) (app : BaseConfig) :
  ok w log (Print (banner_of app)) ->
  w (log ++ [Print (banner_of app)]) (gradle_of self app) = inr 0 ->
  ok w (log ++ [Print (banner_of app); gradle_of self app])
    (OsChmod (path_str (ApkMixin.binary_path self app)) mode_755) ->
  run w log (ApkBuildCommand.build_app self app)
  = (log ++ [Print (banner_of app); gradle_of self app;
             OsChmod (path_str (ApkMixin.binary_path self app)) mode_755],
     inr tt).
Proof.
  intros [[] Hprint] Hrun [[] Hchmod].
  unfold ApkBuildCommand.build_app, subprocess_run.
  rewrite (py_format_eq _ _ _ (banner_format_ok app)).
  exec. rewrite Hprint. exec. rewrite Hrun.
  exec. rewrite Z.eqb_refl. exec. by rewrite Hchmod.
Qed.

Lemma build_app_failure_witness :
  run failing_build_world []
    (ApkBuildCommand.build_app (sample_self ApkBuildCommand "3.7") sample_app)
  = ([Print "[helloworld] Building Android APK...";
      SubprocessRun ["./gradlew"; "assembleDebug"]
        (Some (ApkBuildCommand.build_env (sample_self ApkBuildCommand "3.7")))
        true (Some "/home/user/proj/android/Hello World")],
     inl (BriefcaseCommandError "Error while building app helloworld.")).
Proof.
  apply (build_app_failure failing_build_world []
           (sample_self ApkBuildCommand "3.7") sample_app 1).
  - exists tt. reflexivity.
  - reflexivity.
  - discriminate.
Defined.

Lemma py_dict_list_to_map (pairs : list (string * string)) :
  py_dict pairs = list_to_map (rev pairs).
Proof.
  unfold py_dict. symmetry.
  exact (fold_left_rev_right
           (fun (kv : string * string) (m : gmap string string) =>
              <[kv.1 := kv.2]> m) pairs ∅).
Qed.

Lemma py_dict_items (m : gmap string string) : py_dict (map_to_list m) = m.
Proof.
  rewrite py_dict_list_to_map. symmetry. apply list_to_map_flip.
  apply Permutation_rev.
Qed.

Lemma py_dict_snoc (pairs : list (string * string)) (k v : string) :
  py_dict (pairs ++ [(k, v)]) = <[k := v]> (py_dict pairs).
Proof. unfold py_dict. by rewrite fold_left_app. Qed.

Lemma build_env_eq (self : Self) :
  ApkBuildCommand.build_env self
  = <["ANDROID_SDK_ROOT" := path_str (sdk_root self)]> (environ self).
Proof.
  unfold ApkBuildCommand.build_env. by rewrite py_dict_snoc, py_dict_items.
Qed.

(** C9: the environment of the build subprocess is the inherited
    environment with [ANDROID_SDK_ROOT] set to the toolchain root: that key
    holds the root, every other key holds what it held in the inherited
    environment (nothing where it held nothing), and this mapping is the
    [env] of the one subprocess call of [build_app], which follows the
    banner. *)
Theorem build_env_overlay
    (w : World) (log : list Call) (self : Self) (app : BaseConfig) :
  ok w log (Print (banner_of app)) ->
  let env := <["ANDROID_SDK_ROOT" := path_str (sdk_root self)]> (environ self) in
  (exists (more : list Call) (r : Exn + unit),
     run w log (ApkBuildCommand.build_app self app)
     = (log ++ Print (banner_of app)
            :: SubprocessRun ["./gradlew"; "assembleDebug"] (Some env) true
                 (Some (path_str (bundle_path self app)))
            :: more, r)
     /\ Forall (fun c => is_subprocess c = false) more)
  /\ env !! "ANDROID_SDK_ROOT" = Some (path_str (sdk_root self))
  /\ forall k, k <> "ANDROID_SDK_ROOT" -> env !! k = environ self !! k.
Proof.
  intros [[] Hprint] env.
  split; [|split].
  - unfold ApkBuildCommand.build_app, subprocess_run.
    rewrite (py_format_eq _ _ _ (banner_format_ok app)).
    exec. rewrite Hprint. exec. rewrite build_env_eq. fold env.
    destruct (w (log ++ [Print (banner_of app)])
                (SubprocessRun ["./gradlew"; "assembleDebug"] (Some env) true
                   (Some (path_str (bundle_path self app)))))
      as [e|rc] eqn:Hrun.
    + exec. destruct e; exec;
        rewrite ?(py_format_eq _ _ _ (build_error_format_ok app));
        eexists [], _; (split; [reflexivity | constructor]).
    + exec. destruct (rc =? 0); exec.
      * match goal with
        | |- context [w ?l (OsChmod ?p ?m)] =>
            destruct (w l (OsChmod p m)) as [e|[]]
        end;
          [destruct e|]; exec;
          rewrite ?(py_format_eq _ _ _ (build_error_format_ok app));
          eexists [_], _; (split; [reflexivity | by repeat constructor]).
      * rewrite (py_format_eq _ _ _ (build_error_format_ok app)).
        eexists [], _; (split; [reflexivity | constructor]).
  - apply lookup_insert_eq.
  - intros k Hk. by apply lookup_insert_ne.
Qed.

Lemma build_env_overlay_witness :
  let self := sample_self ApkBuildCommand "3.7" in
  let env :=
    <["ANDROID_SDK_ROOT" := "/home/user/.briefcase/tools/android_sdk"]>
      (environ self) in
  ok fresh_world [] (Print "[helloworld] Building Android APK...")
  /\ env !! "ANDROID_SDK_ROOT" = Some "/home/user/.briefcase/tools/android_sdk"
  /\ env !! "PATH" = environ self !! "PATH"
  /\ exists (more : list Call) (r : Exn + unit),
       run fresh_world [] (ApkBuildCommand.build_app self sample_app)
       = ([Print "[helloworld] Building Android APK...";
           SubprocessRun ["./gradlew"; "assembleDebug"] (Some env) true
             (Some "/home/user/proj/android/Hello World")] ++ more, r).
Proof.
  intros self env.
  assert (Hok : ok fresh_world [] (Print (banner_of sample_app)))
    by (exists tt; reflexivity).
  destruct (build_env_overlay fresh_world [] self sample_app Hok)
    as ((more & r & Hrun & _) & Hkey & Hother).
  split; [exact Hok|]. split; [exact Hkey|].
  split; [apply Hother; discriminate|].
  exists more, r. exact Hrun.
Defined.

(** ** The archive URL *)

(** X1: for [ApkBuildCommand] the archive URL is the repository prefix
    followed by [sdk-tools-], the host system in lower case and
    [-4333796.zip]; formatting cannot fail, whatever the host system string
    contains, and an inherited attribute has no say. *)
Theorem android_sdk_url_of_host (self : Self) :
  cls self = ApkBuildCommand ->
  ApkMixin.android_sdk_url self
  = Some ("https://dl.google.com/android/repository/sdk-tools-"
          +:+ PyStr.lower (host_os self) +:+ "-4333796.zip").
Proof.
  intros Hcls. unfold ApkMixin.android_sdk_url. rewrite Hcls. reflexivity.
Qed.

Lemma android_sdk_url_of_host_witness :
  ApkMixin.android_sdk_url sample_self_tmp
  = Some "https://dl.google.com/android/repository/sdk-tools-darwin-4333796.zip".
Proof. apply (android_sdk_url_of_host sample_self_tmp). reflexivity. Defined.

(** ** Provisioning: the failure paths *)

(** X2: an exception of the download other than the connection error is
    not translated: it leaves [verify_tools] as it is, and the download is
    the last call. *)
Theorem download_other_error_propagates
    (w : World) (log : list Call) (self : Self) (url : string) (e : Exn) :
  python_version_tag self = "3.7" ->
  ApkMixin.android_sdk_url self = Some url ->
  w log (PathExists (sdk_root self)) = inr false ->
  ok w (log ++ [PathExists (sdk_root self)]) setting_up ->
  w (log ++ [PathExists (sdk_root self); setting_up])
    (DownloadUrl url (sdk_cache self)) = inl e ->
  e <> RequestsConnectionError ->
  run w log (ApkMixin.verify_tools self)
  = (log ++ [PathExists (sdk_root self); setting_up;
             DownloadUrl url (sdk_cache self)],
     inl e).
Proof.
  intros Htag Hurl Hroot [[] Hprint] Hdl He.
  unfold ApkMixin.verify_tools. rewrite Htag, String.eqb_refl. cbn [negb].
  exec. rewrite Hroot. exec. rewrite Hprint. exec.
  rewrite Hurl. exec. rewrite Hdl. exec.
  destruct e; try reflexivity. congruence.
Qed.

Lemma download_other_error_propagates_witness :
  run http_error_world []
    (ApkMixin.verify_tools (sample_self ApkBuildCommand "3.7"))
  = ([PathExists [""; "home"; "user"; ".briefcase"; "tools"; "android_sdk"];
      Print "Setting up Android SDK...";
      DownloadUrl
        "https://dl.google.com/android/repository/sdk-tools-linux-4333796.zip"
        [""; "home"; "user"; ".briefcase"; "tools"]],
     inl (OtherException "MissingNetworkResourceError")).
Proof.
  apply (download_other_error_propagates http_error_world []
           (sample_self ApkBuildCommand "3.7")
           "https://dl.google.com/android/repository/sdk-tools-linux-4333796.zip"
           (OtherException "MissingNetworkResourceError"));
    try reflexivity.
  - exists tt. reflexivity.
  - discriminate.
Defined.

(** X3: when the extraction of the archive raises, the exception leaves
    [verify_tools] and the extraction is the last call: the archive is not
    deleted, no permission is set and no tool is run. *)
Theorem extraction_failure_keeps_archive
    (w : World) (log : list Call) (self : Self) (url : string) (zip : Path)
    (e : Exn) :
  python_version_tag self = "3.7" ->
  ApkMixin.android_sdk_url self = Some url ->
  w log (PathExists (sdk_root self)) = inr false ->
  ok w (log ++ [PathExists (sdk_root self)]) setting_up ->
  w (log ++ [PathExists (sdk_root self); setting_up])
    (DownloadUrl url (sdk_cache self)) = inr zip ->
  w (log ++ [PathExists (sdk_root self); setting_up;
             DownloadUrl url (sdk_cache self)])
    (ZipExtractAll zip (sdk_root self)) = inl e ->
  run w log (ApkMixin.verify_tools self)
  = (log ++ [PathExists (sdk_root self); setting_up;
             DownloadUrl url (sdk_cache self);
             ZipExtractAll zip (sdk_root self)],
     inl e).
Proof.
  intros Htag Hurl Hroot [[] Hprint] Hdl Hzip.
  unfold ApkMixin.verify_tools. rewrite Htag, String.eqb_refl. cbn [negb].
  exec. rewrite Hroot. exec. rewrite Hprint. exec.
  rewrite Hurl. exec. rewrite Hdl. exec. rewrite Hzip. by exec.
Qed.

Lemma extraction_failure_keeps_archive_witness :
  run bad_zip_world []
    (ApkMixin.verify_tools (sample_self ApkBuildCommand "3.7"))
  = ([PathExists [""; "home"; "user"; ".briefcase"; "tools"; "android_sdk"];
      Print "Setting up Android SDK...";
      DownloadUrl
        "https://dl.google.com/android/repository/sdk-tools-linux-4333796.zip"
        [""; "home"; "user"; ".briefcase"; "tools"];
      ZipExtractAll
        [""; "home"; "user"; ".briefcase"; "tools"; "sdk-tools.zip"]
        [""; "home"; "user"; ".briefcase"; "tools"; "android_sdk"]],
     inl (OtherException "BadZipFile")).
Proof.
  apply (extraction_failure_keeps_archive bad_zip_world []
           (sample_self ApkBuildCommand "3.7")
           "https://dl.google.com/android/repository/sdk-tools-linux-4333796.zip"
           [""; "home"; "user"; ".briefcase"; "tools"; "sdk-tools.zip"]
           (OtherException "BadZipFile"));
    try reflexivity.
  exists tt. reflexivity.
Defined.

(** ** The emulator check of the run command *)

(** X4: when the provisioning of [ApkMixin] raises, [verify_tools] of the
    run command raises the same exception with the same log: the emulator
    directory is not tested and the package manager is not run. *)
Theorem run_verify_tools_short_circuits
    (w : World) (log log' : list Call) (self : Self) (e : Exn) :
  run w log (ApkMixin.verify_tools self) = (log', inl e) ->
  run w log (ApkRunCommand.verify_tools self) = (log', inl e).
Proof.
  intros Hmixin. unfold ApkRunCommand.verify_tools.
  rewrite run_bind. by rewrite Hmixin.
Qed.

Lemma run_verify_tools_short_circuits_witness :
  run fresh_world []
    (ApkRunCommand.verify_tools (sample_self ApkRunCommand "3.7"))
  = ([PathExists [""; "home"; "user"; ".briefcase"; "tools"; "android_sdk"];
      Print "Setting up Android SDK..."],
     inl (AttributeError "android_sdk_url")).
Proof.
  apply (run_verify_tools_short_circuits fresh_world [] _
           (sample_self ApkRunCommand "3.7")).
  reflexivity.
Defined.

(** X5: once the provisioning of [ApkMixin] has returned, a present
    emulator directory ends [verify_tools] of the run command with that one
    existence test. *)
Theorem run_verify_tools_emulator_present
    (w : World) (log log' : list Call) (self : Self) :
  run w log (ApkMixin.verify_tools self) = (log', inr tt) ->
  w log' (PathExists (sdk_root self </> "emulator")) = inr true ->
  run w log (ApkRunCommand.verify_tools self)
  = (log' ++ [PathExists (sdk_root self </> "emulator")], inr tt).
Proof.
  intros Hmixin Hemu. unfold ApkRunCommand.verify_tools.
  rewrite run_bind, Hmixin. exec. by rewrite Hemu.
Qed.

Lemma run_verify_tools_emulator_present_witness :
  run provisioned_world []
    (ApkRunCommand.verify_tools (sample_self ApkRunCommand "3.7"))
  = ([PathExists [""; "home"; "user"; ".briefcase"; "tools"; "android_sdk"];
      PathExists
        [""; "home"; "user"; ".briefcase"; "tools"; "android_sdk"; "emulator"]],
     inr tt).
Proof.
  apply (run_verify_tools_emulator_present provisioned_world []
           [PathExists [""; "home"; "user"; ".briefcase"; "tools"; "android_sdk"]]
           (sample_self ApkRunCommand "3.7")); reflexivity.
Defined.

(** X6: once the provisioning of [ApkMixin] has returned, a missing
    emulator directory makes [verify_tools] of the run command run the
    package manager of the toolchain root once, for the platform, the
    system image, the emulator and the platform tools, without [check],
    environment or working directory; whatever the exit status of the
    package manager, [verify_tools] returns normally. *)
Theorem run_verify_tools_emulator_missing
    (w : World) (log log' : list Call) (self : Self) (rc : Z) :
  run w log (ApkMixin.verify_tools self) = (log', inr tt) ->
  w log' (PathExists (sdk_root self </> "emulator")) = inr false ->
  ok w (log' ++ [PathExists (sdk_root self </> "emulator")]) emulator_tools ->
  w (log' ++ [PathExists (sdk_root self </> "emulator"); emulator_tools])
    (sdkmanager_of self) = inr rc ->
  run w log (ApkRunCommand.verify_tools self)
  = (log' ++ [PathExists (sdk_root self </> "emulator"); emulator_tools;
              sdkmanager_of self],
     inr tt).
Proof.
  intros Hmixin Hemu [[] Hprint] Hrun. unfold ApkRunCommand.verify_tools.
  rewrite run_bind, Hmixin. unfold subprocess_run.
  exec. rewrite Hemu. exec. rewrite Hprint. exec. by rewrite Hrun.
Qed.

Lemma run_verify_tools_emulator_missing_witness :
  run no_emulator_world []
    (ApkRunCommand.verify_tools (sample_self ApkRunCommand "3.7"))
  = ([PathExists [""; "home"; "user"; ".briefcase"; "tools"; "android_sdk"];
      PathExists
        [""; "home"; "user"; ".briefcase"; "tools"; "android_sdk"; "emulator"];
      Print "Ensuring we have the Android emulator and system image...";
      SubprocessRun
        ["/home/user/.briefcase/tools/android_sdk/tools/bin/sdkmanager";
         "platforms;android-28";
         "system-images;android-28;default;x86";
         "emulator";
         "platform-tools"]
        None false None],
     inr tt).
Proof.
  apply (run_verify_tools_emulator_missing no_emulator_world []
           [PathExists [""; "home"; "user"; ".briefcase"; "tools"; "android_sdk"]]
           (sample_self ApkRunCommand "3.7") 1); try reflexivity.
  exists tt. reflexivity.
Defined.

(** ** The device bridge: the failure paths *)

(** X7: an exception of the install other than [DeviceNotFound] leaves
    [run_app] unchanged; nothing is printed, and force-stop and start are
    not reached. *)
Theorem run_app_install_error_propagates
    (w : World) (log : list Call) (self : Self) (app : BaseConfig)
    (device : string) (e : Exn) :
  w log (install_of self app device) = inl e ->
  e <> DeviceNotFound ->
  run w log (ApkRunCommand.run_app self app (Some device))
  = (log ++ [install_of self app device], inl e).
Proof.
  intros Hinstall He. unfold ApkRunCommand.run_app.
  rewrite run_bind, run_try_except. exec. rewrite Hinstall.
  destruct e; try reflexivity. congruence.
Qed.

Lemma run_app_install_error_propagates_witness :
  run install_error_world []
    (ApkRunCommand.run_app (sample_self ApkRunCommand "3.7") sample_app
       (Some "emulator-5554"))
  = ([InstallApk
        [""; "home"; "user"; ".briefcase"; "tools"; "android_sdk"]
        "emulator-5554"
        [""; "home"; "user"; "proj"; "android"; "Hello World"; "app"; "build";
         "outputs"; "apk"; "debug"; "app-debug.apk"]],
     inl (BriefcaseCommandError "Unable to install APK")).
Proof.
  apply (run_app_install_error_propagates install_error_world []
           (sample_self ApkRunCommand "3.7") sample_app "emulator-5554"
           (BriefcaseCommandError "Unable to install APK")).
  - reflexivity.
  - discriminate.
Defined.

(** X8: an exception of the force-stop, [DeviceNotFound] included, leaves
    [run_app] unchanged after the install; the app is not started and no
    remediation text is produced. *)
Theorem run_app_force_stop_error_propagates
    (w : World) (log : list Call) (self : Self) (app : BaseConfig)
    (device : string) (e : Exn) :
  ok w log (install_of self app device) ->
  w (log ++ [install_of self app device])
    (ForceStopApp (sdk_root self) device (package_of app)) = inl e ->
  run w log (ApkRunCommand.run_app self app (Some device))
  = (log ++ [install_of self app device;
             ForceStopApp (sdk_root self) device (package_of app)],
     inl e).
Proof.
  intros [[] Hinstall] Hstop. unfold ApkRunCommand.run_app.
  rewrite run_bind, run_try_except. exec. rewrite Hinstall.
  rewrite (py_format_eq _ _ _ (package_format_ok app)).
  exec. by rewrite Hstop.
Qed.

Lemma run_app_force_stop_error_propagates_witness :
  run stop_error_world []
    (ApkRunCommand.run_app (sample_self ApkRunCommand "3.7") sample_app
       (Some "emulator-5554"))
  = ([InstallApk
        [""; "home"; "user"; ".briefcase"; "tools"; "android_sdk"]
        "emulator-5554"
        [""; "home"; "user"; "proj"; "android"; "Hello World"; "app"; "build";
         "outputs"; "apk"; "debug"; "app-debug.apk"];
      ForceStopApp
        [""; "home"; "user"; ".briefcase"; "tools"; "android_sdk"]
        "emulator-5554" "org.example.helloworld"],
     inl DeviceNotFound).
Proof.
  apply (run_app_force_stop_error_propagates stop_error_world []
           (sample_self ApkRunCommand "3.7") sample_app "emulator-5554"
           DeviceNotFound).
  - exists tt. reflexivity.
  - reflexivity.
Defined.

(** X9: an exception of the start leaves [run_app] unchanged after the
    install and the force-stop; nothing is undone. *)
Theorem run_app_start_error_propagates
    (w : World) (log : list Call) (self : Self) (app : BaseConfig)
    (device : string) (e : Exn) :
  ok w log (install_of self app device) ->
  ok w (log ++ [install_of self app device])
    (ForceStopApp (sdk_root self) device (package_of app)) ->
  w (log ++ [install_of self app device;
             ForceStopApp (sdk_root self) device (package_of app)])
    (StartApp (sdk_root self) device (package_of app)
       "org.beeware.android.MainActivity") = inl e ->
  run w log (ApkRunCommand.run_app self app (Some device))
  = (log ++ [install_of self app device;
             ForceStopApp (sdk_root self) device (package_of app);
             StartApp (sdk_root self) device (package_of app)
               "org.beeware.android.MainActivity"],
     inl e).
Proof.
  intros [[] Hinstall] [[] Hstop] Hstart. unfold ApkRunCommand.run_app.
  rewrite run_bind, run_try_except. exec. rewrite Hinstall.
  rewrite (py_format_eq _ _ _ (package_format_ok app)).
  exec. rewrite Hstop. exec.
  unfold ApkRunCommand.MAIN_ACTIVITY. by rewrite Hstart.
Qed.

Lemma run_app_start_error_propagates_witness :
  run start_error_world []
    (ApkRunCommand.run_app (sample_self ApkRunCommand "3.7") sample_app
       (Some "emulator-5554"))
  = ([InstallApk
        [""; "home"; "user"; ".briefcase"; "tools"; "android_sdk"]
        "emulator-5554"
        [""; "home"; "user"; "proj"; "android"; "Hello World"; "app"; "build";
         "outputs"; "apk"; "debug"; "app-debug.apk"];
      ForceStopApp
        [""; "home"; "user"; ".briefcase"; "tools"; "android_sdk"]
        "emulator-5554" "org.example.helloworld";
      StartApp
        [""; "home"; "user"; ".briefcase"; "tools"; "android_sdk"]
        "emulator-5554" "org.example.helloworld"
        "org.beeware.android.MainActivity"],
     inl (BriefcaseCommandError "Unable to start app")).
Proof.
  apply (run_app_start_error_propagates start_error_world []
           (sample_self ApkRunCommand "3.7") sample_app "emulator-5554"
           (BriefcaseCommandError "Unable to start app")).
  - exists tt. reflexivity.
  - exists tt. reflexivity.
  - reflexivity.
Defined.

(** X10: in every world, the calls [run_app] makes to the device bridge
    are an initial part of install, force-stop, start, on the device and
    the package of the app: no step runs before the one it follows, none
    runs twice. *)
Theorem run_app_bridge_calls_in_order
    (w : World) (log : list Call) (self : Self) (app : BaseConfig)
    (device : string) :
  exists (more : list Call) (r : Exn + unit),
    run w log (ApkRunCommand.run_app self app (Some device))
    = (log ++ more, r)
    /\ List.filter is_adb more
       `prefix_of` [install_of self app device;
                    ForceStopApp (sdk_root self) device (package_of app);
                    StartApp (sdk_root self) device (package_of app)
                      "org.beeware.android.MainActivity"].
Proof.
  unfold ApkRunCommand.run_app.
  rewrite run_bind, run_try_except. exec.
  destruct (w log (install_of self app device)) as [e|[]] eqn:Hinstall.
  - assert (Hother : e <> DeviceNotFound ->
      exists (more : list Call) (r : Exn + unit),
        (log ++ [install_of self app device], @inl Exn unit e)
        = (log ++ more, r)
        /\ List.filter is_adb more
           `prefix_of` [install_of self app device;
                        ForceStopApp (sdk_root self) device (package_of app);
                        StartApp (sdk_root self) device (package_of app)
                          "org.beeware.android.MainActivity"]).
    { intros _. eexists [_], _. split; [reflexivity|]. by eexists [_; _]. }
    destruct e; try (apply Hother; discriminate).
    rewrite (py_format_eq _ _ _ (not_found_format_ok device)). exec.
    destruct (w (log ++ [install_of self app device])
                (Print (not_found_line device))) as [e1|[]].
    { exec. eexists [_; _], _. split; [reflexivity|]. by eexists [_; _]. }
    exec.
    destruct (w (log ++ [install_of self app device;
                         Print (not_found_line device)])
                (Print "")) as [e2|[]].
    { exec. eexists [_; _; _], _. split; [reflexivity|]. by eexists [_; _]. }
    rewrite (py_format_eq _ _ _ (help_format_ok self)). exec.
    eexists [_; _; _], _. split; [reflexivity|]. by eexists [_; _].
  - rewrite (py_format_eq _ _ _ (package_format_ok app)). exec.
    destruct (w (log ++ [install_of self app device])
                (ForceStopApp (sdk_root self) device (package_of app)))
      as [e|[]].
    { exec. eexists [_; _], _. split; [reflexivity|]. by eexists [_]. }
    exec. unfold ApkRunCommand.MAIN_ACTIVITY.
    destruct (w (log ++ [install_of self app device;
                         ForceStopApp (sdk_root self) device (package_of app)])
                (StartApp (sdk_root self) device (package_of app)
                   "org.beeware.android.MainActivity")) as [e|[]];
      (eexists [_; _; _], _; split; [reflexivity|]; by eexists []).
Qed.

(** ** The build: success and the other failures *)

Lemma build_app_success_witness :
  run fresh_world []
    (ApkBuildCommand.build_app (sample_self ApkBuildCommand "3.7") sample_app)
  = ([Print "[helloworld] Building Android APK...";
      SubprocessRun ["./gradlew"; "assembleDebug"]
        (Some (ApkBuildCommand.build_env (sample_self ApkBuildCommand "3.7")))
        true (Some "/home/user/proj/android/Hello World");
      OsChmod
        "/home/user/proj/android/Hello World/app/build/outputs/apk/debug/app-debug.apk"
        493],
     inr tt).
Proof.
  apply (build_app_success fresh_world []
           (sample_self ApkBuildCommand "3.7") sample_app).
  - exists tt. reflexivity.
  - reflexivity.
  - exists tt. reflexivity.
Defined.

(** X12: an exception of the build subprocess other than
    [CalledProcessError] (the build tool cannot be started, say) leaves
    [build_app] unchanged; the artifact is not made executable. *)
Theorem build_app_other_error_propagates
    (w : World) (log : list Call) (self : Self) (app : BaseConfig) (e : Exn) :
  ok w log (Print (banner_of app)) ->
  w (log ++ [Print (banner_of app)]) (gradle_of self app) = inl e ->
  (forall rc, e <> CalledProcessError rc) ->
  run w log (ApkBuildCommand.build_app self app)
  = (log ++ [Print (banner_of app); gradle_of self app], inl e).
Proof.
  intros [[] Hprint] Hrun He.
  unfold ApkBuildCommand.build_app, subprocess_run.
  rewrite (py_format_eq _ _ _ (banner_format_ok app)).
  exec. rewrite Hprint. exec. rewrite Hrun. exec.
  destruct e; try reflexivity. by destruct (He returncode).
Qed.

Lemma build_app_other_error_propagates_witness :
  run missing_gradle_world []
    (ApkBuildCommand.build_app (sample_self ApkBuildCommand "3.7") sample_app)
  = ([Print "[helloworld] Building Android APK...";
      SubprocessRun ["./gradlew"; "assembleDebug"]
        (Some (ApkBuildCommand.build_env (sample_self ApkBuildCommand "3.7")))
        true (Some "/home/user/proj/android/Hello World")],
     inl (OtherException "FileNotFoundError")).
Proof.
  apply (build_app_other_error_propagates missing_gradle_world []
           (sample_self ApkBuildCommand "3.7") sample_app
           (OtherException "FileNotFoundError")).
  - exists tt. reflexivity.
  - reflexivity.
  - discriminate.
Defined.

(** X13: in every world, [build_app] calls [os.chmod] at most once, on the
    artifact with mode 0o755, and only after the build subprocess has
    exited with status 0. *)
Theorem build_app_chmod_only_after_success
    (w : World) (log : list Call) (self : Self) (app : BaseConfig) :
  exists (more : list Call) (r : Exn + unit),
    run w log (ApkBuildCommand.build_app self app) = (log ++ more, r)
    /\ (List.filter is_os_chmod more = []
        \/ (w (log ++ [Print (banner_of app)]) (gradle_of self app) = inr 0
            /\ more
               = [Print (banner_of app); gradle_of self app;
                  OsChmod (path_str (ApkMixin.binary_path self app))
                    mode_755])).
Proof.
  unfold ApkBuildCommand.build_app, subprocess_run.
  rewrite (py_format_eq _ _ _ (banner_format_ok app)). exec.
  destruct (w log (Print (banner_of app))) as [e|[]].
  { exec. eexists [_], _. split; [reflexivity | by left]. }
  exec.
  destruct (w (log ++ [Print (banner_of app)]) (gradle_of self app))
    as [e|rc] eqn:Hrun.
  { exec. destruct e; exec;
      rewrite ?(py_format_eq _ _ _ (build_error_format_ok app));
      eexists [_; _], _; (split; [reflexivity | by left]). }
  exec. destruct (rc =? 0) eqn:Hrc; exec.
  - apply Z.eqb_eq in Hrc. subst rc.
    destruct (w (log ++ [Print (banner_of app); gradle_of self app])
                (OsChmod (path_str (ApkMixin.binary_path self app)) mode_755))
      as [e|[]];
      [destruct e|]; exec;
      rewrite ?(py_format_eq _ _ _ (build_error_format_ok app));
      eexists [_; _; _], _; (split; [reflexivity | by right]).
  - rewrite (py_format_eq _ _ _ (build_error_format_ok app)).
    eexists [_; _], _. split; [reflexivity | by left].
Qed.

(** ** The artifact path *)


(** ** Provisioning: the remaining steps and the single download *)


(** The permission loop in any world: it logs permission changes only. *)
Lemma run_chmod_loop_any w (entries : list Path) (log : list Call) :
  exists (more : list Call) (r : Exn + unit),
    run w log (for_each entries (fun p => call (PathChmod p mode_755)))
    = (log ++ more, r)
    /\ List.filter is_download more = [].
Proof.
  revert log.
  induction entries as [|p entries IH]; intros log;
    cbn beta iota delta [for_each].
  - exists [], (inr tt). by rewrite app_nil_r.
  - rewrite run_bind. run_call_step.
    destruct (w log (PathChmod p mode_755)) as [e|[]].
    + by eexists [_], _.
    + destruct (IH (log ++ [PathChmod p mode_755])) as (more & r & Hrun & Hmore).
      exists (PathChmod p mode_755 :: more), r. rewrite Hrun.
      split; [by rewrite <- app_assoc | exact Hmore].
Qed.

(** X16: in every world, provisioning attempts at most one download; when
    it attempts one, the toolchain root was reported absent, and the
    download is that of the archive URL of the command into the tools
    directory below the home directory.  A failed download is not
    retried. *)
Theorem provisioning_downloads_at_most_once
    (w : World) (log : list Call) (self : Self) :
  exists (more : list Call) (r : Exn + unit),
    run w log (ApkMixin.verify_tools self) = (log ++ more, r)
    /\ (List.filter is_download more = []
        \/ exists url : string,
             List.filter is_download more = [DownloadUrl url (sdk_cache self)]
             /\ ApkMixin.android_sdk_url self = Some url
             /\ w log (PathExists (sdk_root self)) = inr false).
Proof.
  unfold ApkMixin.verify_tools.
  destruct (String.eqb (python_version_tag self) "3.7"); cbn [negb].
  2: { rewrite (py_format_eq _ _ _ (wrong_python_format_ok self)). exec.
       exists [], (inl (BriefcaseCommandError
                          (wrong_python_text (python_version_tag self)))).
       rewrite app_nil_r. split; [reflexivity | by left]. }
  exec.
  destruct (w log (PathExists (sdk_root self))) as [e|[|]] eqn:Hroot; exec;
    try (eexists [_], _; split; [reflexivity | by left]).
  destruct (w (log ++ [PathExists (sdk_root self)]) setting_up) as [e|[]]; exec;
    try (eexists [_; _], _; split; [reflexivity | by left]).
  destruct (ApkMixin.android_sdk_url self) as [url|]; exec;
    try (eexists [_; _], _; split; [reflexivity | by left]).
  assert (Hfound : forall (tail : list Call) (r : Exn + unit),
            List.filter is_download tail = [] ->
            exists (more : list Call) (r' : Exn + unit),
              (log ++ PathExists (sdk_root self) :: setting_up
                   :: DownloadUrl url (sdk_cache self) :: tail, r)
              = (log ++ more, r')
              /\ (List.filter is_download more = []
                  \/ exists url' : string,
                       List.filter is_download more
                       = [DownloadUrl url' (sdk_cache self)]
                       /\ Some url = Some url'
                       /\ @inr Exn bool false = inr false)).
  { intros tail r Htail. eexists _, _. split; [reflexivity|].
    right. exists url. cbn [List.filter is_download]. by rewrite Htail. }
  destruct (w (log ++ [PathExists (sdk_root self); setting_up])
              (DownloadUrl url (sdk_cache self))) as [e|zip]; exec.
  { destruct e; by apply (Hfound []). }
  destruct (w (log ++ [PathExists (sdk_root self); setting_up;
                       DownloadUrl url (sdk_cache self)])
              (ZipExtractAll zip (sdk_root self))) as [e|[]]; exec.
  { by apply (Hfound [_]). }
  destruct (w (log ++ [PathExists (sdk_root self); setting_up;
                       DownloadUrl url (sdk_cache self);
                       ZipExtractAll zip (sdk_root self)])
              (Unlink zip)) as [e|[]]; exec.
  { by apply (Hfound [_; _]). }
  destruct (ApkMixin.android_sdk_path_tmp self) as [tmp|]; exec.
  2: { by apply (Hfound [_; _]). }
  match goal with
  | |- context [w ?l (Glob ?d ?pat)] =>
      destruct (w l (Glob d pat)) as [e|entries]
  end; exec.
  { by apply (Hfound [_; _; _]). }
  rewrite run_bind.
  match goal with
  | |- context [run w ?l (for_each entries ?body)] =>
      destruct (run_chmod_loop_any w entries l) as (loop & r & Hloop & Hnone)
  end.
  rewrite Hloop. rewrite <- ?app_assoc. cbn [app].
  assert (Hsnoc : forall tail, List.filter is_download tail = [] ->
            List.filter is_download (loop ++ tail) = []).
  { intros tail Htail. by rewrite List.filter_app, Hnone, Htail. }
  destruct r as [e|[]].
  { apply (Hfound (_ :: _ :: _ :: loop)). exact Hnone. }
  exec.
  match goal with
  | |- context [w ?l (Print ?s)] => destruct (w l (Print s)) as [e|[]]
  end; exec.
  { apply (Hfound (_ :: _ :: _ :: loop ++ [_])). cbn [List.filter is_download].
    by apply Hsnoc. }
  unfold subprocess_run. exec.
  match goal with
  | |- context [w ?l (SubprocessRun ?a ?e ?c ?d)] =>
      destruct (w l (SubprocessRun a e c d)) as [e'|rc]
  end; exec.
  { apply (Hfound (_ :: _ :: _ :: loop ++ [_; _])).
    cbn [List.filter is_download]. by apply Hsnoc. }
  destruct (rc =? 0); exec;
    (apply (Hfound (_ :: _ :: _ :: loop ++ [_; _]));
     cbn [List.filter is_download]; by apply Hsnoc).
Qed.

(** ** Further sample runs *)

Lemma run_app_device_not_found_no_stop_start_witness :
  exists (more : list Call) (e : Exn),
    run no_device_world []
      (ApkRunCommand.run_app (sample_self ApkRunCommand "3.7") sample_app
         (Some "emulator-5554"))
    = (InstallApk
         [""; "home"; "user"; ".briefcase"; "tools"; "android_sdk"]
         "emulator-5554"
         [""; "home"; "user"; "proj"; "android"; "Hello World"; "app"; "build";
          "outputs"; "apk"; "debug"; "app-debug.apk"]
         :: more,
       inl e)
    /\ Forall (fun c => is_adb c = false) more.
Proof.
  apply (run_app_device_not_found_no_stop_start no_device_world []
           (sample_self ApkRunCommand "3.7") sample_app "emulator-5554").
  reflexivity.
Defined.

Lemma provisioning_without_url_witness :
  run fresh_world []
    (ApkMixin.verify_tools (sample_self ApkCreateCommand "3.7"))
  = ([PathExists [""; "home"; "user"; ".briefcase"; "tools"; "android_sdk"];
      Print "Setting up Android SDK..."],
     inl (AttributeError "android_sdk_url")).
Proof.
  apply (provisioning_without_url fresh_world []
           (sample_self ApkCreateCommand "3.7")); try reflexivity.
  exists tt. reflexivity.
Defined.
